(** * Cassandra logs exporter: a shallow embedding of [exporter_logs.go]

  The exporter bootstraps a keyspace and a log table at start-up and then
  writes every log record of a batch as one row.  The storage driver, the
  logger and the clock are modelled as an explicit history of events; the
  answers of the outside world are given by an environment that may depend
  on the whole history, so that every outcome of every driver call is
  covered. *)

From Stdlib Require Import ZArith List Bool Lia.
From Stdlib.Strings Require Import String Ascii Byte.
From Stdlib Require Import DecimalString.
Import ListNotations.
Set Warnings "-register-all".
Local Open Scope string_scope.
Local Open Scope list_scope.

(** ** Hexadecimal rendering of identifiers *)

Module traceutil.

Definition hextable : string := "0123456789abcdef".

Definition hexchar (n : N) : ascii :=
  match String.get (N.to_nat n) hextable with
  | Some c => c
  | None => "0"%char
  end.

(** Go's [hex.EncodeToString]: two characters per byte, high nibble
    first, taken from the lowercase table. *)
Fixpoint EncodeToString (src : list byte) : string :=
  match src with
  | [] => EmptyString
  | v :: rest =>
      String (hexchar (N.shiftr (Byte.to_N v) 4))
        (String (hexchar (N.land (Byte.to_N v) 15)) (EncodeToString rest))
  end.

(** Go's [fromHexChar]: digits and both letter cases are accepted. *)
Definition fromHexChar (c : ascii) : option N :=
  let n := N_of_ascii c in
  if (48 <=? n)%N && (n <=? 57)%N then Some (n - 48)%N
  else if (97 <=? n)%N && (n <=? 102)%N then Some (n - 97 + 10)%N
  else if (65 <=? n)%N && (n <=? 70)%N then Some (n - 65 + 10)%N
  else None.

(** Go's [hex.DecodeString]: [None] on an odd length or on a character
    that is not a hexadecimal digit. *)
Fixpoint DecodeString (s : string) : option (list byte) :=
  match s with
  | EmptyString => Some []
  | String _ EmptyString => None
  | String a (String b rest) =>
      match fromHexChar a, fromHexChar b, DecodeString rest with
      | Some hi, Some lo, Some tl =>
          match Byte.of_N (hi * 16 + lo) with
          | Some v => Some (v :: tl)
          | None => None
          end
      | _, _, _ => None
      end
  end.

(** An identifier is empty when it equals the zero value of its array
    type, that is when every byte is zero. *)
Definition IsEmpty (id : list byte) : bool :=
  forallb (fun b => Byte.eqb b x00) id.

(** Modelled from the spec: [traceutil.TraceIDToHexOrEmptyString] lives in
    [internal/coreinternal/traceutil], which is not part of the sources at
    hand.  The spec says: an empty (zero) identifier renders to the empty
    string, any other identifier to its lowercase hexadecimal form. *)
Definition TraceIDToHexOrEmptyString (id : list byte) : string :=
  if IsEmpty id then EmptyString else EncodeToString id.

(** Modelled from the spec: [traceutil.SpanIDToHexOrEmptyString], missing
    for the same reason, with the same rendering on span identifiers. *)
Definition SpanIDToHexOrEmptyString (id : list byte) : string :=
  if IsEmpty id then EmptyString else EncodeToString id.

Definition is_lower_hex (c : ascii) : bool :=
  let n := N_of_ascii c in
  ((48 <=? n)%N && (n <=? 57)%N) || ((97 <=? n)%N && (n <=? 102)%N).

Fixpoint all_chars (p : ascii -> bool) (s : string) : bool :=
  match s with
  | EmptyString => true
  | String c rest => p c && all_chars p rest
  end.

End traceutil.

(** ** The telemetry object model (pdata) *)

Module pcommon.

(** [pcommon.Value]: a tagged union; a double is kept as its bit
    pattern. *)
Inductive Value : Type :=
| ValueEmpty
| ValueStr (s : string)
| ValueInt (i : Z)
| ValueDouble (bits : Z)
| ValueBool (b : bool)
| ValueMap (kvs : list (string * Value))
| ValueSlice (vs : list Value)
| ValueBytes (bs : list byte).

(** [pcommon.Map] is a slice of key/value pairs: order and duplicates
    are kept. *)
Definition Map : Type := list (string * Value).

(** [Map.Get]: linear search, first match wins. *)
Fixpoint Get (m : Map) (key : string) : option Value :=
  match m with
  | [] => None
  | (k, v) :: rest => if String.eqb k key then Some v else Get rest key
  end.

(** [Value.Str]: the string payload, or the empty string for any other
    kind of value. *)
Definition Str (v : Value) : string :=
  match v with
  | ValueStr s => s
  | _ => EmptyString
  end.

End pcommon.

Module plog.

Record LogRecord : Type := mkLogRecord {
  Timestamp : Z;
  TraceID : list byte;
  SpanID : list byte;
  Flags : Z;
  SeverityText : string;
  SeverityNumber : Z;
  Body : pcommon.Value;
  Attributes : pcommon.Map
}.

Record ScopeLogs : Type := mkScopeLogs {
  LogRecords : list LogRecord
}.

Record ResourceLogs : Type := mkResourceLogs {
  Resource : pcommon.Map;
  ScopeLogsSlice : list ScopeLogs
}.

Definition Logs : Type := list ResourceLogs.

(** [Logs.LogRecordCount]: the records of every scope of every
    resource. *)
Definition scopeCount (sls : list ScopeLogs) : nat :=
  list_sum (map (fun sl => List.length (LogRecords sl)) sls).

Definition LogRecordCount (ld : Logs) : nat :=
  list_sum (map (fun rl => scopeCount (ScopeLogsSlice rl)) ld).

End plog.

(** [conventions.AttributeServiceName] *)
Definition AttributeServiceName : string := "service.name".

(** Fixed-width integer conversions. *)
Definition uint32 (z : Z) : Z := z mod 2 ^ 32.
Definition int32 (z : Z) : Z := (z + 2 ^ 31) mod 2 ^ 32 - 2 ^ 31.
Definition int64 (z : Z) : Z := (z + 2 ^ 63) mod 2 ^ 64 - 2 ^ 63.

(** ** The storage driver, the logger and the clock *)

Definition Err : Type := string.
Definition Session : Type := nat.

Inductive ConsistencyLevel : Type :=
| Any | One | Two | Three | Quorum | All | LocalQuorum | EachQuorum | LocalOne.

Record ClusterConfig : Type := mkCluster {
Hosts : list string;
ClusterKeyspace : string;
Consistency : ConsistencyLevel
}.

(** [gocql.NewCluster]: no keyspace, quorum consistency by default. *)
Definition NewCluster (host : string) : ClusterConfig :=
mkCluster [host] EmptyString Quorum.

Inductive Context : Type :=
| Background
| Caller (id : nat).

Inductive Level : Type := DebugLevel | ErrorLevel.

Inductive Field : Type :=
| zap_Error (err : Err)
| zap_Int (key : string) (v : Z)
| zap_String (key : string) (v : string).

Record Compression : Type := mkCompression { Algorithm : string }.

Record Config : Type := mkConfig {
DSN : string;
Keyspace : string;
LogsTable : string;
CompressionCfg : Compression
}.

(** The parts of the package that are declared in its other files (the
    attribute flattener, the statement texts), together with the library
    functions applied to them, are an interface the development is
    parametric in. *)
Class Package : Type := {
  (** the flat column value produced by [attributesToMap] *)
  AttrMap : Type;
  (** the raw Go values produced by [AsRaw] *)
  RawMap : Type;
  Raw : Type;
  attributesToMap : RawMap -> AttrMap;
  Map_AsRaw : pcommon.Map -> RawMap;
  Value_AsRaw : pcommon.Value -> Raw;
  (** the encoder behind [json.Marshal] *)
  json_encode : Raw -> list byte + Err;
  Sprintf : string -> list string -> string;
  Duration_String : Z -> string;
  insertLogTableSQL : string;
  createLogTableSQL : string;
  parseCreateDatabaseSQL : Config -> string
}.

Section Exporter.

Context {pkg : Package}.

(** A bound parameter of a statement. *)
Inductive Arg : Type :=
| ArgTime (t : Z)
| ArgString (s : string)
| ArgUint32 (n : Z)
| ArgInt32 (n : Z)
| ArgMap (m : AttrMap).

Record Query : Type := mkQuery {
  stmt : string;
  values : list Arg;
  qctx : Context
}.

Inductive Event : Type :=
| EvCreateSession (c : ClusterConfig) (r : Session + Err)
| EvExec (s : Session) (q : Query) (r : option Err)
| EvClose (s : Session)
| EvLog (lvl : Level) (msg : string) (fields : list Field)
| EvNow (t : Z).

Definition History : Type := list Event.

(** The outside world: whether a session can be opened, whether a
    statement succeeds, and what the clock reads, each as a function of
    everything that happened before. *)
Record Env : Type := mkEnv {
  connect : History -> ClusterConfig -> option Err;
  exec : History -> Session -> Query -> option Err;
  clock : History -> Z
}.

(** The environment a run takes place in. *)
Class Outside : Type := env : Env.

Context {world : Outside}.

(** Computations: a history transformer whose result is [None] when the
    Go code panics (a method called through a nil session). *)
Definition M (A : Type) : Type := History -> option A * History.

Definition ret {A} (a : A) : M A := fun h => (Some a, h).

Definition bind {A B} (m : M A) (f : A -> M B) : M B :=
  fun h =>
    match m h with
    | (Some a, h') => f a h'
    | (None, h') => (None, h')
    end.

Definition panic {A} : M A := fun h => (None, h).

Definition emit (ev : Event) : M unit := fun h => (Some tt, h ++ [ev]).

Notation "x <- m ;; k" := (bind m (fun x => k))
  (at level 61, m at next level, right associativity).
Notation "m ;;; k" := (bind m (fun _ => k))
  (at level 61, right associativity).

(** [cluster.CreateSession()]: a fresh handle, or an error and a nil
    session. *)
Definition CreateSession (c : ClusterConfig) : M (option Session * option Err) :=
  fun h =>
    match connect env h c with
    | None => (Some (Some (List.length h), None),
            h ++ [EvCreateSession c (inl (List.length h))])
    | Some err => (Some (None, Some err), h ++ [EvCreateSession c (inr err)])
    end.

(** [session.Query(stmt, values...).WithContext(ctx).Exec()] *)
Definition Exec (session : option Session) (q : Query) : M (option Err) :=
  match session with
  | None => panic
  | Some s => fun h => (Some (exec env h s q), h ++ [EvExec s q (exec env h s q)])
  end.

(** [session.Close()] *)
Definition Close (session : option Session) : M unit :=
  match session with
  | None => panic
  | Some s => emit (EvClose s)
  end.

Definition Logger_Error (msg : string) (fields : list Field) : M unit :=
  emit (EvLog ErrorLevel msg fields).

Definition Logger_Debug (msg : string) (fields : list Field) : M unit :=
  emit (EvLog DebugLevel msg fields).

Definition time_Now : M Z :=
  fun h => (Some (clock env h), h ++ [EvNow (clock env h)]).

Definition time_Since (start : Z) : M Z :=
  now <- time_Now ;; ret (now - start)%Z.

(** [json.Marshal]: on failure the byte slice is nil. *)
Definition json_Marshal (v : Raw) : list byte * option Err :=
  match json_encode v with
  | inl b => (b, None)
  | inr err => ([], Some err)
  end.

(** A [for] loop over a slice, without and with a variable that the body
    assigns. *)
Fixpoint for_each {A} (l : list A) (body : A -> M unit) : M unit :=
  match l with
  | [] => ret tt
  | a :: rest => body a ;;; for_each rest body
  end.

Fixpoint for_each_with {A S} (l : list A) (s : S) (body : S -> A -> M S) : M S :=
  match l with
  | [] => ret s
  | a :: rest => s' <- body s a ;; for_each_with rest s' body
  end.

(** The exporter holds its session (possibly nil) and its configuration;
    its logger writes to the history. *)
Record logsExporter : Type := mkLogsExporter {
  client : option Session;
  cfg : Config
}.

Definition newLogsExporter (cfg : Config) : M (option logsExporter * option Err) :=
  let cluster := NewCluster (DSN cfg) in
  r <- CreateSession cluster ;;
  let '(session, err) := r in
  let cluster := mkCluster (Hosts cluster) (Keyspace cfg) (Consistency cluster) in
  let cluster := mkCluster (Hosts cluster) (ClusterKeyspace cluster) Quorum in
  match err with
  | Some err => ret (None, Some err)
  | None => ret (Some (mkLogsExporter session cfg), None)
  end.

Definition parseCreateLogTableSQL (cfg : Config) : string :=
  Sprintf createLogTableSQL
    [Keyspace cfg; LogsTable cfg; Algorithm (CompressionCfg cfg)].

Definition initializeLogKernel (cfg : Config) : M (option Err) :=
  let ctx := Background in
  let cluster := NewCluster (DSN cfg) in
  let cluster := mkCluster (Hosts cluster) (ClusterKeyspace cluster) Quorum in
  r <- CreateSession cluster ;;
  let '(session, err) := r in
  match err with
  | Some err => ret (Some err)
  | None =>
      createDatabaseError <- Exec session (mkQuery (parseCreateDatabaseSQL cfg) [] ctx) ;;
      match createDatabaseError with
      | Some err => ret (Some err)
      | None =>
          createLogTableError <- Exec session (mkQuery (parseCreateLogTableSQL cfg) [] ctx) ;;
          match createLogTableError with
          | Some err => ret (Some err)
          | None =>
              (* the deferred [session.Close()] is registered only here
                 and runs when the function returns *)
              Close session ;;; ret None
          end
      end
  end.

Definition Start (e : logsExporter) (ctx : Context) : M (option Err) :=
  initializeErr <- initializeLogKernel (cfg e) ;;
  ret initializeErr.

Definition Shutdown (e : logsExporter) (ctx : Context) : M (option Err) :=
  match client e with
  | Some s => Close (Some s)
  | None => ret tt
  end ;;;
  ret None.

(** The ten bound parameters of the insert statement of one record. *)
Definition insertValues (serviceName : string) (resAttr : AttrMap)
    (r : plog.LogRecord) : list Arg :=
  let logAttr := attributesToMap (Map_AsRaw (plog.Attributes r)) in
  let '(bodyByte, _) := json_Marshal (Value_AsRaw (plog.Body r)) in
  [ ArgTime (int64 (plog.Timestamp r));
    ArgString (traceutil.TraceIDToHexOrEmptyString (plog.TraceID r));
    ArgString (traceutil.SpanIDToHexOrEmptyString (plog.SpanID r));
    ArgUint32 (uint32 (plog.Flags r));
    ArgString (plog.SeverityText r);
    ArgInt32 (int32 (plog.SeverityNumber r));
    ArgString serviceName;
    ArgString (string_of_list_byte bodyByte);
    ArgMap resAttr;
    ArgMap logAttr ].

Definition insertQuery (e : logsExporter) (ctx : Context)
    (serviceName : string) (resAttr : AttrMap) (r : plog.LogRecord) : Query :=
  mkQuery (Sprintf insertLogTableSQL [Keyspace (cfg e); LogsTable (cfg e)])
    (insertValues serviceName resAttr r) ctx.

(** The body of the innermost loop. *)
Definition pushRecord (e : logsExporter) (ctx : Context)
    (serviceName : string) (resAttr : AttrMap) (r : plog.LogRecord) : M unit :=
  insertLogError <- Exec (client e) (insertQuery e ctx serviceName resAttr r) ;;
  match insertLogError with
  | Some err => Logger_Error "insert log error" [zap_Error err]
  | None => ret tt
  end.

(** The body of the outermost loop; [serviceName] is the variable
    declared before the loop. *)
Definition pushResource (e : logsExporter) (ctx : Context)
    (serviceName : string) (logs : plog.ResourceLogs) : M string :=
  let res := plog.Resource logs in
  let resAttr := attributesToMap (Map_AsRaw res) in
  let serviceName :=
    match pcommon.Get res AttributeServiceName with
    | Some v => pcommon.Str v
    | None => serviceName
    end in
  for_each (plog.ScopeLogsSlice logs) (fun sl =>
    for_each (plog.LogRecords sl) (fun r =>
      pushRecord e ctx serviceName resAttr r)) ;;;
  ret serviceName.

Definition pushLogsData (e : logsExporter) (ctx : Context) (ld : plog.Logs)
    : M (option Err) :=
  start <- time_Now ;;
  _ <- for_each_with ld EmptyString (pushResource e ctx) ;;
  duration <- time_Since start ;;
  Logger_Debug "insert logs"
    [zap_Int "records" (Z.of_nat (plog.LogRecordCount ld));
     zap_String "cost" (Duration_String duration)] ;;;
  ret None.

(** ** What a run leaves in the history *)

(** The statements executed, with their session and outcome. *)
Fixpoint execs (h : History) : list (Session * Query * option Err) :=
match h with
| [] => []
| EvExec s q r :: rest => (s, q, r) :: execs rest
| _ :: rest => execs rest
end.

(** The errors of the statements that failed. *)
Fixpoint failures (h : History) : list Err :=
match h with
| [] => []
| EvExec _ _ (Some err) :: rest => err :: failures rest
| _ :: rest => failures rest
end.

(** The log entries of one level. *)
Fixpoint logged (lvl : Level) (h : History) : list (string * list Field) :=
match h with
| [] => []
| EvLog DebugLevel msg fields :: rest =>
    match lvl with
    | DebugLevel => (msg, fields) :: logged lvl rest
    | ErrorLevel => logged lvl rest
    end
| EvLog ErrorLevel msg fields :: rest =>
    match lvl with
    | ErrorLevel => (msg, fields) :: logged lvl rest
    | DebugLevel => logged lvl rest
    end
| _ :: rest => logged lvl rest
end.

(** The sessions opened and the sessions closed. *)
Fixpoint opened (h : History) : list Session :=
match h with
| [] => []
| EvCreateSession _ (inl s) :: rest => s :: opened rest
| _ :: rest => opened rest
end.

Fixpoint closed (h : History) : list Session :=
match h with
| [] => []
| EvClose s :: rest => s :: closed rest
| _ :: rest => closed rest
end.

(** ** The rows of a batch, as a pure function *)

Definition resolveServiceName (serviceName : string) (logs : plog.ResourceLogs)
    : string :=
match pcommon.Get (plog.Resource logs) AttributeServiceName with
| Some v => pcommon.Str v
| None => serviceName
end.

Definition resourceRows (e : logsExporter) (ctx : Context)
    (serviceName : string) (logs : plog.ResourceLogs) : list Query :=
flat_map
  (fun sl =>
     map (insertQuery e ctx serviceName
            (attributesToMap (Map_AsRaw (plog.Resource logs))))
         (plog.LogRecords sl))
  (plog.ScopeLogsSlice logs).

(** [serviceName] is the value of the loop variable when the traversal
    reaches [ld]. *)
Fixpoint rows (e : logsExporter) (ctx : Context) (serviceName : string)
    (ld : plog.Logs) : list Query :=
match ld with
| [] => []
| logs :: rest =>
    resourceRows e ctx (resolveServiceName serviceName logs) logs
      ++ rows e ctx (resolveServiceName serviceName logs) rest
end.

(** What one insert leaves behind: the statement, and an error entry
    when it failed. *)
Definition record_events (s : Session) (q : Query) (r : option Err) : History :=
EvExec s q r ::
  match r with
  | Some err => [EvLog ErrorLevel "insert log error" [zap_Error err]]
  | None => []
  end.

Definition run_events (s : Session) (qrs : list (Query * option Err)) : History :=
flat_map (fun qr => record_events s (fst qr) (snd qr)) qrs.

(** [runs m s qs a]: from every history, [m] returns [a] after executing
    exactly the statements [qs] on session [s], each with some outcome. *)
Definition runs {A} (m : M A) (s : Session) (qs : list Query) (a : A) : Prop :=
forall h, exists outs,
  List.length outs = List.length qs /\
  m h = (Some a, h ++ run_events s (combine qs outs)).

(** The value of [serviceName] after the traversal of [ld]. *)
Definition lastServiceName (serviceName : string) (ld : plog.Logs) : string :=
fold_left resolveServiceName ld serviceName.

(** The summary entry written at the end of a batch. *)
Definition summary (ld : plog.Logs) (duration : Z) : Event :=
EvLog DebugLevel "insert logs"
  [zap_Int "records" (Z.of_nat (plog.LogRecordCount ld));
   zap_String "cost" (Duration_String duration)].

Definition error_entry (err : Err) : string * list Field :=
("insert log error", [zap_Error err]).

(** The statements executed, without their session and outcome. *)
Definition statements (h : History) : list Query :=
map (fun x => snd (fst x)) (execs h).

(** The errors of the session openings that were refused. *)
Fixpoint refused (h : History) : list Err :=
match h with
| [] => []
| EvCreateSession _ (inr err) :: rest => err :: refused rest
| _ :: rest => refused rest
end.

(** ** The schema bootstrap, case by case *)

Definition keyspaceQuery (cfg : Config) : Query :=
mkQuery (parseCreateDatabaseSQL cfg) [] Background.

Definition tableQuery (cfg : Config) : Query :=
mkQuery (parseCreateLogTableSQL cfg) [] Background.

(** The four ways [initializeLogKernel] can go, with the result it returns
    and the events it adds; [s] is the handle of the administrative
    session. *)
Inductive bootstrap (cfg : Config) (s : Session) : option Err -> History -> Prop :=
| bootstrap_refused err :
    bootstrap cfg s (Some err)
      [EvCreateSession (NewCluster (DSN cfg)) (inr err)]
| bootstrap_keyspace_failed err :
    bootstrap cfg s (Some err)
      [EvCreateSession (NewCluster (DSN cfg)) (inl s);
       EvExec s (keyspaceQuery cfg) (Some err)]
| bootstrap_table_failed err :
    bootstrap cfg s (Some err)
      [EvCreateSession (NewCluster (DSN cfg)) (inl s);
       EvExec s (keyspaceQuery cfg) None;
       EvExec s (tableQuery cfg) (Some err)]
| bootstrap_done :
    bootstrap cfg s None
      [EvCreateSession (NewCluster (DSN cfg)) (inl s);
       EvExec s (keyspaceQuery cfg) None;
       EvExec s (tableQuery cfg) None;
       EvClose s].

(** The events a computation adds to the history it starts from. *)
Definition added {A} (m : M A) (h : History) : History :=
skipn (List.length h) (snd (m h)).

(** [Start] opens the session the exporter holds. *)
Definition Start_opens_client (e : logsExporter) (ctx : Context) (h : History)
    : Prop :=
exists s, client e = Some s /\ In s (opened (added (Start e ctx) h)).

(** ** One record inside a batch *)

Definition withBody (r : plog.LogRecord) (body : pcommon.Value) : plog.LogRecord :=
plog.mkLogRecord (plog.Timestamp r) (plog.TraceID r) (plog.SpanID r)
  (plog.Flags r) (plog.SeverityText r) (plog.SeverityNumber r) body
  (plog.Attributes r).

(** A batch in which the record [r] is singled out: the resource groups
    before and after its group, the scope groups before and after its
    scope, the records before and after it. *)
Definition batchAround (before : plog.Logs) (res : pcommon.Map)
    (sbefore : list plog.ScopeLogs) (rbefore : list plog.LogRecord)
    (r : plog.LogRecord) (rafter : list plog.LogRecord)
    (safter : list plog.ScopeLogs) (after : plog.Logs) : plog.Logs :=
before
  ++ [plog.mkResourceLogs res
        (sbefore ++ [plog.mkScopeLogs (rbefore ++ [r] ++ rafter)] ++ safter)]
  ++ after.

(** The position of that record in the traversal. *)
Definition positionIn (before : plog.Logs) (sbefore : list plog.ScopeLogs)
    (rbefore : list plog.LogRecord) : nat :=
plog.LogRecordCount before + plog.scopeCount sbefore + List.length rbefore.

(** How an identifier must show in a row: the empty string when it is
    empty, and otherwise two lowercase hexadecimal digits per byte that
    decode to the identifier. *)
Definition hex_or_empty (id : list byte) (s : string) : Prop :=
if traceutil.IsEmpty id then s = EmptyString
else String.length s = 2 * List.length id
     /\ traceutil.all_chars traceutil.is_lower_hex s = true
     /\ traceutil.DecodeString s = Some id.

(** ** More views of a history and of a batch *)

(** The clock readings taken. *)
Fixpoint readings (h : History) : list Z :=
match h with
| [] => []
| EvNow t :: rest => t :: readings rest
| _ :: rest => readings rest
end.

(** The records of a batch in the order of the traversal: resource by
    resource, scope by scope. *)
Definition allRecords (ld : plog.Logs) : list plog.LogRecord :=
flat_map (fun logs => flat_map plog.LogRecords (plog.ScopeLogsSlice logs)) ld.

(** The service name in force for the rows of [logs] when the resource
    groups [before] precede it in the batch. *)
Definition serviceNameAt (before : plog.Logs) (logs : plog.ResourceLogs) : string :=
match pcommon.Get (plog.Resource logs) AttributeServiceName with
| Some v => pcommon.Str v
| None => lastServiceName EmptyString before
end.

(** The statement text of every insert of an exporter. *)
Definition insertStatement (e : logsExporter) : string :=
Sprintf insertLogTableSQL [Keyspace (cfg e); LogsTable (cfg e)].

(** In the run of [pushLogsData] on the batch [before ++ [g] ++ after],
    every row of the group [g] binds its parameter number [index] (from
    zero) to [a].  The rows of [g] are found by their position: after the
    rows of [before], as many as [g] has records. *)
Definition groupRowsBind (e : logsExporter) (ctx : Context) (h : History)
    (before : plog.Logs) (g : plog.ResourceLogs) (after : plog.Logs)
    (index : nat) (a : Arg) : Prop :=
exists qa qg qb,
  statements (snd (pushLogsData e ctx (before ++ [g] ++ after) h))
  = statements h ++ qa ++ qg ++ qb /\
  List.length qa = plog.LogRecordCount before /\
  List.length qg = plog.scopeCount (plog.ScopeLogsSlice g) /\
  Forall (fun q => nth_error (values q) index = Some a) qg.

(** A resource group without a service name. *)
Definition unnamed (g : plog.ResourceLogs) : Prop :=
pcommon.Get (plog.Resource g) AttributeServiceName = None.

(** [q] is the insert of the record [r]: the insert text for the
    keyspace and the table of the configuration, bound to [ctx], with the
    ten parameters of [r] in the order of the call; the service name and
    the resource attributes are those in force for [r]. *)
Definition isInsertOf (e : logsExporter) (ctx : Context) (q : Query)
    (r : plog.LogRecord) : Prop :=
stmt q = Sprintf insertLogTableSQL [Keyspace (cfg e); LogsTable (cfg e)] /\
qctx q = ctx /\
exists serviceName resAttr,
  values q
  = [ ArgTime (int64 (plog.Timestamp r));
      ArgString (traceutil.TraceIDToHexOrEmptyString (plog.TraceID r));
      ArgString (traceutil.SpanIDToHexOrEmptyString (plog.SpanID r));
      ArgUint32 (uint32 (plog.Flags r));
      ArgString (plog.SeverityText r);
      ArgInt32 (int32 (plog.SeverityNumber r));
      ArgString serviceName;
      ArgString
        (string_of_list_byte (fst (json_Marshal (Value_AsRaw (plog.Body r)))));
      ArgMap resAttr;
      ArgMap (attributesToMap (Map_AsRaw (plog.Attributes r))) ].

End Exporter.

(** * A concrete package and concrete worlds

    Stand-ins for the helpers of the package, three worlds and a few
    batches, on which the definitions above are run. *)

Module Sample.

(** [%s] substitution, enough for the statement texts. *)
Fixpoint sprintf (format : string) (args : list string) : string :=
match format with
| EmptyString => EmptyString
| String "%" (String "s" rest) =>
    match args with
    | a :: args' => a ++ sprintf rest args'
    | [] => "%!s(MISSING)" ++ sprintf rest []
    end
| String c rest => String c (sprintf rest args)
end.

(** An encoder that refuses doubles, as the real one refuses the doubles
    that are not numbers. *)
Definition encode (v : pcommon.Value) : list byte + Err :=
match v with
| pcommon.ValueStr s => inl (list_byte_of_string s)
| pcommon.ValueDouble _ => inr "json: unsupported value"
| _ => inl (list_byte_of_string "null")
end.

Definition package : Package := {|
  AttrMap := list (string * string);
  RawMap := pcommon.Map;
  Raw := pcommon.Value;
  attributesToMap := map (fun kv => (fst kv, pcommon.Str (snd kv)));
  Map_AsRaw := fun m => m;
  Value_AsRaw := fun v => v;
  json_encode := encode;
  Sprintf := sprintf;
  Duration_String := fun d => (NilZero.string_of_int (Z.to_int d) ++ "ns")%string;
  insertLogTableSQL := "INSERT INTO %s.%s (ts, trace, span, flags, sev, sevno, service, body, res, attrs) VALUES (?, ?, ?, ?, ?, ?, ?, ?, ?, ?)";
  createLogTableSQL := "CREATE TABLE IF NOT EXISTS %s.%s (ts timestamp) WITH compression = %s";
  parseCreateDatabaseSQL := fun c =>
    sprintf "CREATE KEYSPACE IF NOT EXISTS %s" [Keyspace c]
|}.

Definition ticking (h : @History package) : Z := Z.of_nat (List.length h).

(** Every session opens and every statement succeeds. *)
Definition calm : @Outside package :=
mkEnv (fun _ _ => None) (fun _ _ _ => None) ticking.

(** The second statement of a history fails, the others succeed. *)
Definition flaky : @Outside package :=
mkEnv (fun _ _ => None)
  (fun h _ _ =>
     if Nat.eqb (List.length (execs h)) 1 then Some "write timeout" else None)
  ticking.

(** Sessions open, and every statement fails. *)
Definition down : @Outside package :=
mkEnv (fun _ _ => None) (fun _ _ _ => Some "unavailable") ticking.

Definition config : Config :=
mkConfig "127.0.0.1:9042" "otel" "otel_logs" (mkCompression "LZ4Compressor").

Definition exporter : @logsExporter := mkLogsExporter (Some 0) config.

Definition traceA : list byte :=
[x4b; xf9; x2f; x35; x77; xb3; x4d; xa6; xa3; xce; x92; x9d; x0e; x0e; x47; x36].

Definition spanA : list byte := [x00; xf0; x67; xaa; x0b; xa9; x02; xb7].

Definition record (text : string) (body : pcommon.Value) : plog.LogRecord :=
plog.mkLogRecord 1700000000000000000 traceA spanA 1 text 9 body
  [("http.method", pcommon.ValueStr "GET")].

Definition recordA : plog.LogRecord := record "INFO" (pcommon.ValueStr "started").
Definition recordB : plog.LogRecord := record "WARN" (pcommon.ValueStr "slow").
Definition recordC : plog.LogRecord := record "INFO" (pcommon.ValueStr "done").

(** A record whose body the encoder refuses. *)
Definition recordNaN : plog.LogRecord := record "INFO" (pcommon.ValueDouble (-1)).

Definition checkout : pcommon.Map := [("service.name", pcommon.ValueStr "checkout")].
Definition anonymous : pcommon.Map := [("host.name", pcommon.ValueStr "node-7")].

(** One resource, one scope, three records. *)
Definition three : plog.Logs :=
[plog.mkResourceLogs checkout [plog.mkScopeLogs [recordA; recordB; recordC]]].

(** A resource that names its service, followed by one that does not. *)
Definition named_then_anonymous : plog.Logs :=
[plog.mkResourceLogs checkout [plog.mkScopeLogs [recordA]];
 plog.mkResourceLogs anonymous [plog.mkScopeLogs [recordB]]].

(** The service name bound by each statement of a history. *)
Definition serviceNames (h : @History package) : list (option (@Arg package)) :=
map (fun q => nth_error (values q) 6) (statements h).

(** An exporter without a session. *)
Definition unconnected : logsExporter := mkLogsExporter None config.

(** A resource with a scope that holds no record. *)
Definition hollow : plog.Logs :=
[plog.mkResourceLogs checkout [plog.mkScopeLogs []]].

Definition namedGroup : plog.ResourceLogs :=
plog.mkResourceLogs checkout [plog.mkScopeLogs [recordA; recordB]].

Definition anonymousGroup : plog.ResourceLogs :=
plog.mkResourceLogs anonymous [plog.mkScopeLogs [recordC]].

(** A named resource that holds no record. *)
Definition silentGroup : plog.ResourceLogs :=
plog.mkResourceLogs checkout [].

(** The history after [newLogsExporter] on the empty history. *)
Definition connected : @History package :=
[EvCreateSession (NewCluster "127.0.0.1:9042") (inl 0)].

End Sample.

(** * Properties *)

(** ** Hexadecimal rendering *)

Lemma hex_byte_decodes (v : byte) :
  match traceutil.fromHexChar (traceutil.hexchar (N.shiftr (Byte.to_N v) 4)),
        traceutil.fromHexChar (traceutil.hexchar (N.land (Byte.to_N v) 15)) with
  | Some hi, Some lo => Byte.of_N (hi * 16 + lo) = Some v
  | _, _ => False
  end.
Proof. destruct v; vm_compute; reflexivity. Qed.

Lemma hex_byte_lower (v : byte) :
  traceutil.is_lower_hex (traceutil.hexchar (N.shiftr (Byte.to_N v) 4))
  && traceutil.is_lower_hex (traceutil.hexchar (N.land (Byte.to_N v) 15)) = true.
Proof. destruct v; vm_compute; reflexivity. Qed.

Lemma DecodeString_pair a b rest :
  traceutil.DecodeString (String a (String b rest))
  = match traceutil.fromHexChar a, traceutil.fromHexChar b,
          traceutil.DecodeString rest with
    | Some hi, Some lo, Some tl =>
        match Byte.of_N (hi * 16 + lo) with
        | Some v => Some (v :: tl)
        | None => None
        end
    | _, _, _ => None
    end.
Proof. reflexivity. Qed.

Lemma DecodeString_EncodeToString (id : list byte) :
  traceutil.DecodeString (traceutil.EncodeToString id) = Some id.
Proof.
induction id as [|v id IH]; [reflexivity|].
cbn [traceutil.EncodeToString]. rewrite DecodeString_pair, IH.
pose proof (hex_byte_decodes v) as Hv.
destruct (traceutil.fromHexChar _); [|contradiction].
destruct (traceutil.fromHexChar _); [|contradiction].
rewrite Hv. reflexivity.
Qed.

Lemma EncodeToString_length (id : list byte) :
  String.length (traceutil.EncodeToString id) = 2 * List.length id.
Proof.
induction id as [|v id IH]; [reflexivity|].
cbn [traceutil.EncodeToString String.length List.length]. lia.
Qed.

Lemma EncodeToString_lower (id : list byte) :
  traceutil.all_chars traceutil.is_lower_hex (traceutil.EncodeToString id) = true.
Proof.
induction id as [|v id IH]; [reflexivity|].
cbn [traceutil.EncodeToString traceutil.all_chars].
rewrite IH, andb_true_r. apply hex_byte_lower.
Qed.

Lemma EncodeToString_hex_or_empty (id : list byte) :
  hex_or_empty id
    (if traceutil.IsEmpty id then EmptyString else traceutil.EncodeToString id).
Proof.
unfold hex_or_empty. destruct (traceutil.IsEmpty id); [reflexivity|].
split; [apply EncodeToString_length|].
split; [apply EncodeToString_lower|apply DecodeString_EncodeToString].
Qed.

Section Properties.

Context {pkg : Package} {world : Outside}.

Lemma execs_app (a b : History) : execs (a ++ b) = execs a ++ execs b.
Proof.
induction a as [|ev a IH]; simpl; [reflexivity|].
destruct ev; simpl; rewrite IH; reflexivity.
Qed.

Lemma failures_app (a b : History) : failures (a ++ b) = failures a ++ failures b.
Proof.
induction a as [|ev a IH]; simpl; [reflexivity|].
destruct ev as [| ? ? [err|] | | |]; simpl; rewrite IH; reflexivity.
Qed.

Lemma logged_app lvl (a b : History) :
  logged lvl (a ++ b) = logged lvl a ++ logged lvl b.
Proof.
induction a as [|ev a IH]; simpl; [reflexivity|].
destruct ev as [| | | [|] ? ? |]; destruct lvl; simpl; rewrite IH; reflexivity.
Qed.

Lemma opened_app (a b : History) : opened (a ++ b) = opened a ++ opened b.
Proof.
induction a as [|ev a IH]; simpl; [reflexivity|].
destruct ev as [? [s|err] | | | |]; simpl; rewrite IH; reflexivity.
Qed.

Lemma closed_app (a b : History) : closed (a ++ b) = closed a ++ closed b.
Proof.
induction a as [|ev a IH]; simpl; [reflexivity|].
destruct ev; simpl; rewrite IH; reflexivity.
Qed.

Lemma run_events_app s (a b : list (Query * option Err)) :
  run_events s (a ++ b) = run_events s a ++ run_events s b.
Proof. unfold run_events. apply flat_map_app. Qed.

Lemma combine_app {X Y} (a b : list X) (oa ob : list Y) :
  List.length oa = List.length a ->
  combine (a ++ b) (oa ++ ob) = combine a oa ++ combine b ob.
Proof.
revert oa. induction a as [|x a IH]; intros [|o oa] Hl; simpl in *;
  try discriminate; [reflexivity|].
f_equal. apply IH. lia.
Qed.

Lemma runs_ret {A} s (a : A) : runs (ret a) s [] a.
Proof.
intros h. exists []. split; [reflexivity|].
unfold ret. simpl. rewrite app_nil_r. reflexivity.
Qed.

Lemma runs_bind {A B} (m : M A) (f : A -> M B) s qs1 qs2 a b :
  runs m s qs1 a -> runs (f a) s qs2 b -> runs (bind m f) s (qs1 ++ qs2) b.
Proof.
intros H1 H2 h.
destruct (H1 h) as [o1 [L1 E1]].
destruct (H2 (h ++ run_events s (combine qs1 o1))) as [o2 [L2 E2]].
exists (o1 ++ o2). split.
- rewrite !length_app. lia.
- unfold bind. rewrite E1, E2.
  rewrite combine_app by exact L1.
  rewrite run_events_app, app_assoc. reflexivity.
Qed.

Lemma runs_for_each {A} (l : list A) (body : A -> M unit) s (g : A -> list Query) :
  (forall a, In a l -> runs (body a) s (g a) tt) ->
  runs (for_each l body) s (flat_map g l) tt.
Proof.
induction l as [|a l IH]; intros Hb; simpl.
- apply runs_ret.
- apply runs_bind with (a := tt).
  + apply Hb. left. reflexivity.
  + apply IH. intros x Hx. apply Hb. right. exact Hx.
Qed.

Lemma map_as_flat_map {X Y} (f : X -> Y) (l : list X) :
  map f l = flat_map (fun x => [f x]) l.
Proof. induction l as [|x l IH]; simpl; [|rewrite IH]; reflexivity. Qed.

Lemma pushRecord_runs e ctx sn ra r s :
  client e = Some s ->
  runs (pushRecord e ctx sn ra r) s [insertQuery e ctx sn ra r] tt.
Proof.
intros Hc h.
exists [exec env h s (insertQuery e ctx sn ra r)]. split; [reflexivity|].
unfold pushRecord, bind, Exec. rewrite Hc. simpl.
destruct (exec env h s (insertQuery e ctx sn ra r)); simpl.
- unfold Logger_Error, emit. rewrite <- app_assoc. reflexivity.
- unfold ret. reflexivity.
Qed.

Lemma pushResource_runs e ctx sn logs s :
  client e = Some s ->
  runs (pushResource e ctx sn logs) s
    (resourceRows e ctx (resolveServiceName sn logs) logs)
    (resolveServiceName sn logs).
Proof.
intros Hc. unfold pushResource.
rewrite <- (app_nil_r (resourceRows _ _ _ _)).
apply runs_bind with (a := tt); [|apply runs_ret].
unfold resourceRows. apply runs_for_each. intros sl _.
rewrite map_as_flat_map.
apply runs_for_each. intros r _.
apply pushRecord_runs. exact Hc.
Qed.

Lemma for_each_with_runs e ctx ld sn s :
  client e = Some s ->
  runs (for_each_with ld sn (pushResource e ctx)) s
    (rows e ctx sn ld) (lastServiceName sn ld).
Proof.
intros Hc. revert sn. induction ld as [|logs ld IH]; intros sn; simpl.
- apply runs_ret.
- eapply runs_bind.
  + apply pushResource_runs. exact Hc.
  + apply IH.
Qed.

Lemma rows_length e ctx sn ld :
  List.length (rows e ctx sn ld) = plog.LogRecordCount ld.
Proof.
revert sn. induction ld as [|logs ld IH]; intros sn; simpl; [reflexivity|].
rewrite length_app, IH. unfold plog.LogRecordCount. simpl. f_equal.
unfold resourceRows, plog.scopeCount.
induction (plog.ScopeLogsSlice logs) as [|sl sls IHs]; simpl; [reflexivity|].
rewrite length_app, length_map, IHs. reflexivity.
Qed.

Lemma rows_app e ctx sn (a b : plog.Logs) :
  rows e ctx sn (a ++ b) = rows e ctx sn a ++ rows e ctx (lastServiceName sn a) b.
Proof.
revert sn. induction a as [|logs a IH]; intros sn; simpl; [reflexivity|].
rewrite IH, app_assoc. reflexivity.
Qed.

(** The whole run of [pushLogsData] on an exporter that holds a session:
    one clock reading, the inserts of [rows] in order, each with some
    outcome, a second clock reading and the summary entry. *)
Lemma pushLogsData_run e ctx ld s h :
  client e = Some s ->
  exists outs,
    List.length outs = plog.LogRecordCount ld /\
    let t0 := clock env h in
    let mid := h ++ [EvNow t0] ++ run_events s (combine (rows e ctx "" ld) outs) in
    let t1 := clock env mid in
    pushLogsData e ctx ld h = (Some None, mid ++ [EvNow t1; summary ld (t1 - t0)]).
Proof.
intros Hc.
destruct (for_each_with_runs e ctx ld "" s Hc (h ++ [EvNow (clock env h)]))
  as [outs [L E]].
exists outs. split; [rewrite L; apply rows_length|].
cbv zeta. unfold pushLogsData, bind, time_Now at 1.
rewrite E. unfold time_Since, bind, time_Now, ret, Logger_Debug, emit, summary.
rewrite <- !app_assoc. reflexivity.
Qed.

Lemma execs_run_events s qrs :
  execs (run_events s qrs) = map (fun qr => (s, fst qr, snd qr)) qrs.
Proof.
induction qrs as [|[q [err|]] qrs IH]; simpl; [reflexivity| |];
  rewrite <- IH; reflexivity.
Qed.

Lemma error_log_run_events s qrs :
  logged ErrorLevel (run_events s qrs)
  = map error_entry (failures (run_events s qrs)).
Proof.
induction qrs as [|[q [err|]] qrs IH]; simpl; [reflexivity| |].
- rewrite <- IH. reflexivity.
- exact IH.
Qed.

Lemma debug_log_run_events s qrs : logged DebugLevel (run_events s qrs) = [].
Proof.
induction qrs as [|[q [err|]] qrs IH]; simpl; [reflexivity| |]; exact IH.
Qed.

Lemma map_fst_combine {X Y} (a : list X) (b : list Y) :
  List.length b = List.length a -> map fst (combine a b) = a.
Proof.
revert b. induction a as [|x a IH]; intros [|y b] Hl; simpl in *;
  try discriminate; [reflexivity|].
f_equal. apply IH. lia.
Qed.

(** ** Writing a batch *)

(** C1. Whatever the batch and whatever the outcome of each insert,
    [pushLogsData] on an exporter that holds a session returns nil: every
    row is attempted in order, and the failures, however many, only show
    as error entries of the log, one per failed insert. *)
Theorem pushLogsData_returns_nil e ctx ld s h :
  client e = Some s ->
  fst (pushLogsData e ctx ld h) = Some None /\
  statements (snd (pushLogsData e ctx ld h)) = statements h ++ rows e ctx "" ld /\
  exists failed,
    failures (snd (pushLogsData e ctx ld h)) = failures h ++ failed /\
    logged ErrorLevel (snd (pushLogsData e ctx ld h))
    = logged ErrorLevel h ++ map error_entry failed.
Proof.
intros Hc.
destruct (pushLogsData_run e ctx ld s h Hc) as [outs [L E]].
cbv zeta in E. rewrite E. simpl fst. simpl snd.
split; [reflexivity|]. split.
- unfold statements. rewrite !execs_app. simpl. rewrite execs_run_events.
  rewrite app_nil_r, map_app, map_map. simpl.
  change (fun x : Query * option Err => fst x) with (@fst Query (option Err)).
  rewrite map_fst_combine; [reflexivity|].
  rewrite L, rows_length. reflexivity.
- exists (failures (run_events s (combine (rows e ctx "" ld) outs))).
  rewrite !failures_app, !logged_app. simpl.
  rewrite error_log_run_events, !app_nil_r. split; reflexivity.
Qed.

(** C10. On a batch without resource groups [pushLogsData] executes no
    statement, reads the clock twice, writes the one debug entry, which
    reports zero records and the elapsed time, and returns nil. *)
Theorem pushLogsData_empty_batch e ctx h :
  let t0 := clock env h in
  let t1 := clock env (h ++ [EvNow t0]) in
  pushLogsData e ctx [] h
  = (Some None,
     h ++ [EvNow t0; EvNow t1;
           EvLog DebugLevel "insert logs"
             [zap_Int "records" 0; zap_String "cost" (Duration_String (t1 - t0))]])
  /\ execs (snd (pushLogsData e ctx [] h)) = execs h
  /\ List.length (logged DebugLevel (snd (pushLogsData e ctx [] h)))
     = List.length (logged DebugLevel h) + 1.
Proof.
cbv zeta.
assert (E : pushLogsData e ctx [] h
  = (Some None,
     h ++ [EvNow (clock env h); EvNow (clock env (h ++ [EvNow (clock env h)]));
           EvLog DebugLevel "insert logs"
             [zap_Int "records" 0;
              zap_String "cost"
                (Duration_String
                   (clock env (h ++ [EvNow (clock env h)]) - clock env h))]])).
{ unfold pushLogsData, bind, time_Now at 1. simpl.
  unfold time_Since, bind, time_Now, ret, Logger_Debug, emit. simpl.
  rewrite <- !app_assoc. reflexivity. }
rewrite E. simpl snd. split; [reflexivity|]. split.
- rewrite execs_app. simpl. apply app_nil_r.
- rewrite logged_app, length_app. reflexivity.
Qed.

(** ** Shutting down *)

Lemma Shutdown_closes_or_noop_eq e ctx h :
  Shutdown e ctx h
  = (Some None,
     match client e with
     | Some s => h ++ [EvClose s]
     | None => h
     end).
Proof.
unfold Shutdown, bind. destruct (client e) as [s|]; reflexivity.
Qed.

(** C9. [Shutdown] never fails: it closes the session when the exporter
    holds one and otherwise leaves the history untouched. *)
Theorem Shutdown_closes_or_noop e ctx h :
  Shutdown e ctx h
  = (Some None,
     match client e with
     | Some s => h ++ [EvClose s]
     | None => h
     end).
Proof.
unfold Shutdown, bind. destruct (client e) as [s|]; reflexivity.
Qed.


(** ** Rows *)

Lemma pushLogsData_nil e ctx ld s h :
  client e = Some s -> fst (pushLogsData e ctx ld h) = Some None.
Proof.
intros Hc. destruct (pushLogsData_run e ctx ld s h Hc) as [outs [_ E]].
cbv zeta in E. rewrite E. reflexivity.
Qed.

Lemma pushLogsData_statements e ctx ld s h :
  client e = Some s ->
  statements (snd (pushLogsData e ctx ld h)) = statements h ++ rows e ctx "" ld.
Proof.
intros Hc. destruct (pushLogsData_run e ctx ld s h Hc) as [outs [L E]].
cbv zeta in E. rewrite E. simpl snd.
unfold statements. rewrite !execs_app. simpl. rewrite execs_run_events.
rewrite app_nil_r, map_app, map_map. simpl.
change (fun x : Query * option Err => fst x) with (@fst Query (option Err)).
rewrite map_fst_combine; [reflexivity|].
rewrite L, rows_length. reflexivity.
Qed.

Lemma scope_rows_length e ctx sn ra (sls : list plog.ScopeLogs) :
  List.length
    (flat_map (fun sl => map (insertQuery e ctx sn ra) (plog.LogRecords sl)) sls)
  = plog.scopeCount sls.
Proof.
unfold plog.scopeCount.
induction sls as [|sl sls IH]; simpl; [reflexivity|].
rewrite length_app, length_map, IH. reflexivity.
Qed.

(** The rows of a batch around one record: the rows before it and after
    it do not mention the record. *)
Lemma rows_batchAround e ctx before res sbefore rbefore r rafter safter after :
  let ra := attributesToMap (Map_AsRaw res) in
  let sn := match pcommon.Get res AttributeServiceName with
            | Some v => pcommon.Str v
            | None => lastServiceName "" before
            end in
  let scope := fun sl => map (insertQuery e ctx sn ra) (plog.LogRecords sl) in
  rows e ctx "" (batchAround before res sbefore rbefore r rafter safter after)
  = (rows e ctx "" before ++ flat_map scope sbefore
       ++ map (insertQuery e ctx sn ra) rbefore)
    ++ [insertQuery e ctx sn ra r]
    ++ (map (insertQuery e ctx sn ra) rafter ++ flat_map scope safter
          ++ rows e ctx sn after).
Proof.
cbv zeta. unfold batchAround.
rewrite rows_app. cbn [app rows].
unfold resourceRows, resolveServiceName.
cbn [plog.Resource plog.ScopeLogsSlice].
rewrite flat_map_app. cbn [flat_map plog.LogRecords].
rewrite map_app. cbn [map].
rewrite <- !app_assoc. reflexivity.
Qed.

(** C7. When the body of one record cannot be serialized, [pushLogsData]
    still returns nil and still executes the insert of that record, at
    its place in the traversal and with the empty string as its body; the
    rows of all the other records are what they are for any other body of
    that record. *)
Theorem body_failure_gives_empty_body
    e ctx s h before res sbefore rbefore r rafter safter after err :
  client e = Some s ->
  json_encode (Value_AsRaw (plog.Body r)) = inr err ->
  exists sn qa qb,
    let ra := attributesToMap (Map_AsRaw res) in
    let ld := batchAround before res sbefore rbefore r rafter safter after in
    fst (pushLogsData e ctx ld h) = Some None /\
    statements (snd (pushLogsData e ctx ld h))
    = statements h ++ qa ++ [insertQuery e ctx sn ra r] ++ qb /\
    List.length qa = positionIn before sbefore rbefore /\
    nth_error (values (insertQuery e ctx sn ra r)) 7 = Some (ArgString EmptyString) /\
    forall body,
      rows e ctx ""
        (batchAround before res sbefore rbefore (withBody r body) rafter safter after)
      = qa ++ [insertQuery e ctx sn ra (withBody r body)] ++ qb.
Proof.
intros Hc Hj.
pose proof (rows_batchAround e ctx before res sbefore rbefore) as R.
cbv zeta in R.
eexists. eexists. eexists. cbv zeta.
split; [apply (pushLogsData_nil e ctx _ s h Hc)|].
split; [rewrite (pushLogsData_statements e ctx _ s h Hc), R; reflexivity|].
split.
- rewrite !length_app, rows_length, scope_rows_length, length_map.
  unfold positionIn. lia.
- split.
  + unfold insertQuery, insertValues, json_Marshal. cbn [values].
    rewrite Hj. reflexivity.
  + intros body. apply R.
Qed.

(** C8. In the row of a record, the second and third parameters are the
    trace and the span identifier, each rendered whole: the empty string
    for an identifier whose bytes are all zero, and otherwise two
    lowercase hexadecimal digits per byte, which decode to the bytes of
    the identifier. *)
Theorem ids_render_hex_or_empty sn ra (r : plog.LogRecord) :
  exists trace span,
    nth_error (insertValues sn ra r) 1 = Some (ArgString trace) /\
    nth_error (insertValues sn ra r) 2 = Some (ArgString span) /\
    trace = traceutil.TraceIDToHexOrEmptyString (plog.TraceID r) /\
    span = traceutil.SpanIDToHexOrEmptyString (plog.SpanID r) /\
    hex_or_empty (plog.TraceID r) trace /\
    hex_or_empty (plog.SpanID r) span.
Proof.
exists (traceutil.TraceIDToHexOrEmptyString (plog.TraceID r)),
       (traceutil.SpanIDToHexOrEmptyString (plog.SpanID r)).
unfold insertValues. destruct (json_Marshal _) as [bodyByte ?].
repeat (split; [reflexivity|]).
split; apply EncodeToString_hex_or_empty.
Qed.

(** ** Start-up *)

Lemma skipn_length_app {X} (a b : list X) : skipn (List.length a) (a ++ b) = b.
Proof. induction a as [|x a IH]; simpl; [reflexivity|exact IH]. Qed.

Lemma initializeLogKernel_cases c h :
  exists r evs,
    initializeLogKernel c h = (Some r, h ++ evs) /\
    bootstrap c (List.length h) r evs.
Proof.
unfold initializeLogKernel, bind, CreateSession.
cbn [Hosts ClusterKeyspace NewCluster].
change (mkCluster [DSN c] EmptyString Quorum) with (NewCluster (DSN c)).
destruct (connect env h (NewCluster (DSN c))) as [err|].
{ exists (Some err). eexists. split; [reflexivity|constructor]. }
unfold Exec.
fold (keyspaceQuery c). fold (tableQuery c).
set (h1 := h ++ [EvCreateSession (NewCluster (DSN c)) (inl (List.length h))]).
destruct (exec env h1 (List.length h) (keyspaceQuery c)) as [err|].
{ exists (Some err). eexists. split; [|apply bootstrap_keyspace_failed].
  unfold ret, h1. rewrite <- app_assoc. reflexivity. }
set (h2 := h1 ++ [EvExec (List.length h) (keyspaceQuery c) None]).
destruct (exec env h2 (List.length h) (tableQuery c)) as [err|].
{ exists (Some err). eexists. split; [|apply bootstrap_table_failed].
  unfold ret, h2, h1. rewrite <- !app_assoc. reflexivity. }
exists None. eexists. split; [|apply bootstrap_done].
unfold Close, emit, ret, h2, h1. rewrite <- !app_assoc. reflexivity.
Qed.

Lemma Start_is_initializeLogKernel e ctx h :
  Start e ctx h = initializeLogKernel (cfg e) h.
Proof.
unfold Start, bind, ret.
destruct (initializeLogKernel (cfg e) h) as [[r|] h']; reflexivity.
Qed.

(** The administrative session is closed on the successful path only. *)
Lemma initializeLogKernel_closes_on_success_only c h :
  exists r evs,
    initializeLogKernel c h = (Some r, h ++ evs) /\
    closed evs = match r with
                 | None => opened evs
                 | Some _ => []
                 end.
Proof.
destruct (initializeLogKernel_cases c h) as [r [evs [E B]]].
exists r, evs. split; [exact E|].
destruct B; reflexivity.
Qed.

(** C4. [Start] returns what the schema bootstrap returns, and it fails
    exactly when the administrative session is refused or a statement
    fails.  The session is opened once and at most two statements are
    executed, each once: the keyspace statement first, and the table
    statement only after the keyspace statement succeeded. *)
Theorem Start_fails_iff_bootstrap_fails e ctx h :
  exists r evs,
    Start e ctx h = (Some r, h ++ evs) /\
    (r <> None <-> refused evs <> [] \/ failures evs <> []) /\
    List.length (opened evs) + List.length (refused evs) = 1 /\
    match execs evs with
    | [] => True
    | [x] => snd (fst x) = keyspaceQuery (cfg e) /\ snd x <> None
    | [x; y] =>
        snd (fst x) = keyspaceQuery (cfg e) /\ snd x = None /\
        snd (fst y) = tableQuery (cfg e)
    | _ => False
    end.
Proof.
destruct (initializeLogKernel_cases (cfg e) h) as [r [evs [E B]]].
exists r, evs. rewrite Start_is_initializeLogKernel.
split; [exact E|].
destruct B; cbn.
- repeat split; try discriminate. intros _. left. discriminate.
- repeat split; try discriminate. intros _. right. discriminate.
- repeat split; try discriminate. intros _. right. discriminate.
- repeat split.
  + intros H. exfalso. apply H. reflexivity.
  + intros [H|H] _; apply H; reflexivity.
Qed.

(** C5, as the code has it. The session the exporter holds is opened by
    [newLogsExporter], from the cluster configuration of the configured
    address, before [Start] can run.  [Start] does not open it: it runs
    the schema bootstrap and returns its result, so it fails when the
    bootstrap fails. *)
Theorem newLogsExporter_opens_client_Start_bootstraps c h :
  let opening := EvCreateSession (NewCluster (DSN c)) (inl (List.length h)) in
  let e := mkLogsExporter (Some (List.length h)) c in
  (exists err,
     newLogsExporter c h
     = (Some (None, Some err),
        h ++ [EvCreateSession (NewCluster (DSN c)) (inr err)]))
  \/ (newLogsExporter c h = (Some (Some e, None), h ++ [opening]) /\
      forall ctx later,
        Start e ctx (h ++ [opening] ++ later)
        = initializeLogKernel c (h ++ [opening] ++ later) /\
        ~ In (List.length h)
            (opened (added (Start e ctx) (h ++ [opening] ++ later)))).
Proof.
cbv zeta. unfold newLogsExporter, bind, CreateSession.
destruct (connect env h (NewCluster (DSN c))) as [err|].
{ left. exists err. reflexivity. }
right. split; [reflexivity|].
intros ctx later.
split; [apply Start_is_initializeLogKernel|].
unfold added. rewrite Start_is_initializeLogKernel. cbn [cfg].
destruct (initializeLogKernel_cases c
            (h ++ [EvCreateSession (NewCluster (DSN c)) (inl (List.length h))]
               ++ later)) as [r [evs [E B]]].
rewrite E. cbn [snd]. rewrite skipn_length_app.
assert (L : List.length h
            <> List.length
                 (h ++ [EvCreateSession (NewCluster (DSN c)) (inl (List.length h))]
                    ++ later)).
{ rewrite !length_app. cbn [List.length]. lia. }
destruct B; cbn; intros H;
  try (destruct H as [H|H]; [apply L; symmetry; exact H|]); exact H.
Qed.

(** ** Further properties of the exporter *)

Lemma refused_app (a b : History) : refused (a ++ b) = refused a ++ refused b.
Proof.
induction a as [|ev a IH]; simpl; [reflexivity|].
destruct ev as [? [s|err] | | | |]; simpl; rewrite IH; reflexivity.
Qed.

Lemma readings_app (a b : History) : readings (a ++ b) = readings a ++ readings b.
Proof.
induction a as [|ev a IH]; simpl; [reflexivity|].
destruct ev; simpl; rewrite IH; reflexivity.
Qed.

Lemma run_events_sessions s qrs :
  opened (run_events s qrs) = [] /\ closed (run_events s qrs) = [] /\
  refused (run_events s qrs) = [] /\ readings (run_events s qrs) = [].
Proof.
induction qrs as [|[q [err|]] qrs IH]; simpl; [repeat split| |]; exact IH.
Qed.

(** [pushLogsData] leaves the sessions alone: it neither opens nor closes
    one, whatever the batch and the outcomes of the inserts. *)
Theorem pushLogsData_keeps_sessions e ctx ld s h :
  client e = Some s ->
  opened (snd (pushLogsData e ctx ld h)) = opened h /\
  refused (snd (pushLogsData e ctx ld h)) = refused h /\
  closed (snd (pushLogsData e ctx ld h)) = closed h.
Proof.
intros Hc. destruct (pushLogsData_run e ctx ld s h Hc) as [outs [_ E]].
cbv zeta in E. rewrite E. cbn [snd].
destruct (run_events_sessions s (combine (rows e ctx "" ld) outs))
  as [Ho [Hcl [Hr _]]].
rewrite !opened_app, !refused_app, !closed_app. cbn.
rewrite Ho, Hcl, Hr, !app_nil_r. repeat split.
Qed.

(** [Shutdown] does not forget the session: a second call closes the same
    session once more and returns nil again. *)
Theorem Shutdown_twice_closes_twice e ctx ctx' s h :
  client e = Some s ->
  Shutdown e ctx' (snd (Shutdown e ctx h)) = (Some None, h ++ [EvClose s; EvClose s]).
Proof.
intros Hc. rewrite !Shutdown_closes_or_noop_eq, Hc. cbn [snd].
rewrite <- app_assoc. reflexivity.
Qed.

(** [Start] uses neither the caller's context nor the exporter's session:
    each statement it executes is bound to the background context, has no
    parameter and runs on the session that [Start] itself opened. *)
Theorem Start_runs_in_background e ctx h :
  Forall
    (fun x =>
       qctx (snd (fst x)) = Background /\
       values (snd (fst x)) = [] /\
       opened (added (Start e ctx) h) = [fst (fst x)])
    (execs (added (Start e ctx) h)).
Proof.
unfold added. rewrite Start_is_initializeLogKernel.
destruct (initializeLogKernel_cases (cfg e) h) as [r [evs [E B]]].
rewrite E. cbn [snd]. rewrite skipn_length_app.
destruct B; cbn; repeat constructor.
Qed.

(** ** The rows of one resource group *)

Lemma insertQuery_columns e ctx sn ra r :
  stmt (insertQuery e ctx sn ra r) = insertStatement e /\
  qctx (insertQuery e ctx sn ra r) = ctx /\
  List.length (values (insertQuery e ctx sn ra r)) = 10 /\
  nth_error (values (insertQuery e ctx sn ra r)) 6 = Some (ArgString sn) /\
  nth_error (values (insertQuery e ctx sn ra r)) 8 = Some (ArgMap ra).
Proof.
unfold insertQuery, insertValues. cbn [stmt qctx values].
destruct (json_Marshal _) as [bodyByte ?]. repeat split.
Qed.

Lemma rows_group e ctx before g after :
  rows e ctx "" (before ++ [g] ++ after)
  = rows e ctx "" before
    ++ resourceRows e ctx (serviceNameAt before g) g
    ++ rows e ctx (serviceNameAt before g) after.
Proof. rewrite rows_app. reflexivity. Qed.

Lemma resourceRows_Forall (P : Query -> Prop) e ctx sn g :
  (forall r,
     P (insertQuery e ctx sn (attributesToMap (Map_AsRaw (plog.Resource g))) r)) ->
  Forall P (resourceRows e ctx sn g).
Proof.
intros HP. apply Forall_forall. intros q Hq.
unfold resourceRows in Hq.
apply in_flat_map in Hq. destruct Hq as [sl [_ Hq]].
apply in_map_iff in Hq. destruct Hq as [r [Hr _]].
rewrite <- Hr. apply HP.
Qed.

Lemma group_rows e ctx s h before g after index a :
  client e = Some s ->
  (forall r,
     nth_error
       (values (insertQuery e ctx (serviceNameAt before g)
                  (attributesToMap (Map_AsRaw (plog.Resource g))) r)) index
     = Some a) ->
  groupRowsBind e ctx h before g after index a.
Proof.
intros Hc Hcol.
exists (rows e ctx "" before),
       (resourceRows e ctx (serviceNameAt before g) g),
       (rows e ctx (serviceNameAt before g) after).
split; [rewrite (pushLogsData_statements e ctx _ s h Hc), rows_group; reflexivity|].
split; [apply rows_length|].
split; [apply scope_rows_length|].
apply resourceRows_Forall. exact Hcol.
Qed.

Lemma lastServiceName_unnamed sn (ld : plog.Logs) :
  Forall unnamed ld -> lastServiceName sn ld = sn.
Proof.
intros H. revert sn. induction H as [|g ld Hg _ IH]; intros sn; [reflexivity|].
unfold lastServiceName. cbn [fold_left]. unfold resolveServiceName at 2.
unfold unnamed in Hg. rewrite Hg. apply IH.
Qed.

Lemma lastServiceName_app sn (a b : plog.Logs) :
  lastServiceName sn (a ++ b) = lastServiceName (lastServiceName sn a) b.
Proof. unfold lastServiceName. apply fold_left_app. Qed.

(** A resource group that has a [service.name] attribute gets its own
    name on all its rows, whatever groups precede it: the string of the
    first such attribute, or the empty string when that attribute is not
    a string. *)
Theorem named_group_rows_carry_own_name e ctx s h before g after v :
  client e = Some s ->
  pcommon.Get (plog.Resource g) AttributeServiceName = Some v ->
  groupRowsBind e ctx h before g after 6 (ArgString (pcommon.Str v)).
Proof.
intros Hc Hv. apply (group_rows e ctx s h before g after _ _ Hc).
intros r. unfold serviceNameAt. rewrite Hv. apply insertQuery_columns.
Qed.

(** A resource group without a [service.name] attribute gets, on all its
    rows, the name of the nearest group before it that has one, also when
    that group holds no record. *)
Theorem unnamed_group_rows_carry_previous_name
    e ctx s h earlier g0 between g after v :
  client e = Some s ->
  pcommon.Get (plog.Resource g0) AttributeServiceName = Some v ->
  Forall unnamed between ->
  unnamed g ->
  groupRowsBind e ctx h (earlier ++ [g0] ++ between) g after 6
    (ArgString (pcommon.Str v)).
Proof.
intros Hc Hv Hb Hg. apply (group_rows e ctx s h _ g after _ _ Hc).
intros r. unfold serviceNameAt. unfold unnamed in Hg. rewrite Hg.
rewrite !lastServiceName_app, (lastServiceName_unnamed _ between Hb).
unfold lastServiceName at 1. cbn [fold_left]. unfold resolveServiceName.
rewrite Hv. apply insertQuery_columns.
Qed.

(** When neither a resource group nor any group before it has a
    [service.name] attribute, its rows carry the empty string. *)
Theorem unnamed_groups_rows_carry_empty_name e ctx s h before g after :
  client e = Some s ->
  Forall unnamed before ->
  unnamed g ->
  groupRowsBind e ctx h before g after 6 (ArgString EmptyString).
Proof.
intros Hc Hb Hg. apply (group_rows e ctx s h before g after _ _ Hc).
intros r. unfold serviceNameAt. unfold unnamed in Hg. rewrite Hg.
rewrite (lastServiceName_unnamed _ before Hb). apply insertQuery_columns.
Qed.

(** The resource attributes are not carried over: all rows of a resource
    group carry the flattened attributes of that group's own resource. *)
Theorem group_rows_carry_own_resource_attributes e ctx s h before g after :
  client e = Some s ->
  groupRowsBind e ctx h before g after 8
    (ArgMap (attributesToMap (Map_AsRaw (plog.Resource g)))).
Proof.
intros Hc. apply (group_rows e ctx s h before g after _ _ Hc).
intros r. apply insertQuery_columns.
Qed.

(** ** The rows of a batch, in order *)

Lemma rows_follow_records e ctx sn ld :
  Forall2 (fun q r => exists sn' ra, q = insertQuery e ctx sn' ra r)
    (rows e ctx sn ld) (allRecords ld).
Proof.
revert sn. induction ld as [|g ld IH]; intros sn; cbn [rows allRecords flat_map].
- constructor.
- apply Forall2_app; [|apply IH].
  unfold resourceRows.
  induction (plog.ScopeLogsSlice g) as [|sl sls IHs]; cbn [flat_map].
  + constructor.
  + apply Forall2_app; [|exact IHs].
    induction (plog.LogRecords sl) as [|r rs IHr]; cbn [map]; constructor.
    * eexists. eexists. reflexivity.
    * exact IHr.
Qed.

(** The inserts follow the records of the batch one to one and in the
    order of the traversal: the k-th statement that [pushLogsData] executes
    is the insert of the k-th record, whatever happened to the inserts
    before it. *)
Theorem pushLogsData_inserts_in_order e ctx ld s h :
  client e = Some s ->
  exists qs,
    statements (snd (pushLogsData e ctx ld h)) = statements h ++ qs /\
    Forall2 (fun q r => exists sn ra, q = insertQuery e ctx sn ra r)
      qs (allRecords ld).
Proof.
intros Hc. exists (rows e ctx "" ld).
split; [apply (pushLogsData_statements e ctx ld s h Hc)|].
apply rows_follow_records.
Qed.

(** Every insert of a batch has the same statement text, built from the
    keyspace and the table of the configuration, is bound to the caller's
    context and binds ten parameters. *)
Theorem pushLogsData_insert_shape e ctx ld s h :
  client e = Some s ->
  exists qs,
    statements (snd (pushLogsData e ctx ld h)) = statements h ++ qs /\
    Forall (fun q => stmt q = insertStatement e /\ qctx q = ctx /\
                     List.length (values q) = 10) qs.
Proof.
intros Hc. exists (rows e ctx "" ld).
split; [apply (pushLogsData_statements e ctx ld s h Hc)|].
pose proof (rows_follow_records e ctx "" ld) as F.
induction F as [|q r qs rs [sn [ra Hq]] _ IH]; constructor; [|exact IH].
rewrite Hq. pose proof (insertQuery_columns e ctx sn ra r) as C.
repeat split; apply C.
Qed.

(** ** One insert per record *)

Lemma insertQuery_isInsertOf e ctx sn ra r :
  isInsertOf e ctx (insertQuery e ctx sn ra r) r.
Proof.
unfold isInsertOf, insertQuery, insertValues. cbn [stmt qctx values].
split; [reflexivity|]. split; [reflexivity|].
exists sn, ra.
destruct (json_Marshal (Value_AsRaw (plog.Body r))) as [bodyByte err].
reflexivity.
Qed.

Lemma rows_are_inserts e ctx sn ld :
  Forall2 (isInsertOf e ctx) (rows e ctx sn ld) (allRecords ld).
Proof.
apply Forall2_impl with (2 := rows_follow_records e ctx sn ld).
intros q r [sn' [ra Hq]]. rewrite Hq. apply insertQuery_isInsertOf.
Qed.

Lemma scope_records_length (sls : list plog.ScopeLogs) :
  List.length (flat_map plog.LogRecords sls) = plog.scopeCount sls.
Proof.
unfold plog.scopeCount.
induction sls as [|sl sls IH]; cbn [flat_map map list_sum]; [reflexivity|].
rewrite length_app, IH. reflexivity.
Qed.

Lemma allRecords_length ld : List.length (allRecords ld) = plog.LogRecordCount ld.
Proof.
unfold allRecords, plog.LogRecordCount.
induction ld as [|g ld IH]; cbn [flat_map map list_sum]; [reflexivity|].
rewrite length_app, IH, scope_records_length. reflexivity.
Qed.

Lemma statements_run_events s (qs : list Query) (outs : list (option Err)) :
  List.length outs = List.length qs ->
  statements (run_events s (combine qs outs)) = qs.
Proof.
intros L. unfold statements. rewrite execs_run_events, map_map. cbn [fst snd].
change (fun x : Query * option Err => fst x) with (@fst Query (option Err)).
apply map_fst_combine. exact L.
Qed.

(** C3. [pushLogsData] executes exactly one insert per log record.  The
    statements it adds to the history all run on the exporter's session,
    and they are, one for one and in order, the inserts of the records of
    the batch: the first is the insert of the first record, the second of
    the second, and so on, with no other statement and none twice.  Their
    number is therefore the sum over all resources and scopes of the
    number of records.  This holds whatever the flattener, the serializer
    and the earlier inserts answered. *)
Theorem pushLogsData_one_insert_per_record e ctx ld s h :
  client e = Some s ->
  exists qs,
    map fst (execs (snd (pushLogsData e ctx ld h)))
    = map fst (execs h) ++ map (pair s) qs /\
    Forall2 (isInsertOf e ctx) qs (allRecords ld) /\
    List.length (allRecords ld) = plog.LogRecordCount ld /\
    List.length (execs (snd (pushLogsData e ctx ld h)))
    = List.length (execs h) + plog.LogRecordCount ld.
Proof.
intros Hc.
destruct (pushLogsData_run e ctx ld s h Hc) as [outs [L E]].
cbv zeta in E. rewrite E. cbn [snd].
assert (Hx : execs ((h ++ [EvNow (clock env h)]
                       ++ run_events s (combine (rows e ctx "" ld) outs))
                    ++ [EvNow (clock env
                                 (h ++ [EvNow (clock env h)]
                                    ++ run_events s (combine (rows e ctx "" ld) outs)));
                        summary ld
                          (clock env
                             (h ++ [EvNow (clock env h)]
                                ++ run_events s (combine (rows e ctx "" ld) outs))
                           - clock env h)])
             = execs h
               ++ map (fun qr => (s, fst qr, snd qr)) (combine (rows e ctx "" ld) outs)).
{ rewrite !execs_app. cbn. rewrite execs_run_events, app_nil_r. reflexivity. }
rewrite Hx. exists (rows e ctx "" ld).
split.
- rewrite map_app, !map_map. cbn [fst]. f_equal.
  rewrite <- (map_fst_combine (rows e ctx "" ld) outs) at 2
    by (rewrite L, rows_length; reflexivity).
  rewrite map_map. reflexivity.
- split; [apply rows_are_inserts|].
  split; [apply allRecords_length|].
  rewrite length_app, length_map, length_combine.
  rewrite rows_length, L, Nat.min_id. reflexivity.
Qed.

(** Every call of [pushLogsData] on an exporter with a session goes
    through the same four stages: a first clock reading; then the inserts
    of all the records of the batch, with no clock reading and no debug
    entry among them; then a second clock reading, taken from the history
    as the inserts left it; and last the one debug entry, which reports
    the number of records of the batch and the second reading minus the
    first. *)
Theorem pushLogsData_summary e ctx ld s h :
  client e = Some s ->
  exists ins,
    snd (pushLogsData e ctx ld h)
    = h ++ [EvNow (clock env h)] ++ ins
        ++ [EvNow (clock env (h ++ [EvNow (clock env h)] ++ ins));
            EvLog DebugLevel "insert logs"
              [zap_Int "records" (Z.of_nat (plog.LogRecordCount ld));
               zap_String "cost"
                 (Duration_String
                    (clock env (h ++ [EvNow (clock env h)] ++ ins)
                     - clock env h))]] /\
    readings ins = [] /\
    logged DebugLevel ins = [] /\
    Forall2 (isInsertOf e ctx) (statements ins) (allRecords ld).
Proof.
intros Hc. destruct (pushLogsData_run e ctx ld s h Hc) as [outs [L E]].
cbv zeta in E. rewrite E. cbn [snd].
exists (run_events s (combine (rows e ctx "" ld) outs)).
split; [unfold summary; rewrite <- !app_assoc; reflexivity|].
split; [apply run_events_sessions|].
split; [apply debug_log_run_events|].
rewrite statements_run_events by (rewrite L, rows_length; reflexivity).
apply rows_are_inserts.
Qed.

(** ** An exporter without a session *)

Lemma for_each_quiet {A} (p : A -> bool) (l : list A) (body : A -> M unit) :
  (forall a h, body a h = ((if p a then Some tt else None), h)) ->
  forall h, for_each l body h = ((if forallb p l then Some tt else None), h).
Proof.
intros Hb. induction l as [|a l IH]; intros h; cbn [for_each forallb].
- reflexivity.
- unfold bind. rewrite Hb. destruct (p a); cbn; [apply IH|reflexivity].
Qed.

Lemma for_each_with_quiet {A S} (p : A -> bool) (f : S -> A -> S)
    (l : list A) (body : S -> A -> M S) :
  (forall s a h, body s a h = ((if p a then Some (f s a) else None), h)) ->
  forall s h,
    for_each_with l s body h
    = ((if forallb p l then Some (fold_left f l s) else None), h).
Proof.
intros Hb. induction l as [|a l IH]; intros s h; cbn [for_each_with forallb fold_left].
- reflexivity.
- unfold bind. rewrite Hb. destruct (p a); cbn; [apply IH|reflexivity].
Qed.

Lemma forallb_zero {A} (f : A -> nat) (l : list A) :
  forallb (fun a => Nat.eqb (f a) 0) l = Nat.eqb (list_sum (map f l)) 0.
Proof.
induction l as [|a l IH]; cbn [forallb map list_sum]; [reflexivity|].
rewrite IH. destruct (f a); reflexivity.
Qed.

Lemma pushResource_without_session e ctx sn g h :
  client e = None ->
  pushResource e ctx sn g h
  = ((if Nat.eqb (plog.scopeCount (plog.ScopeLogsSlice g)) 0
      then Some (resolveServiceName sn g) else None), h).
Proof.
intros Hc. unfold pushResource, bind.
rewrite (for_each_quiet
           (fun sl => Nat.eqb (List.length (plog.LogRecords sl)) 0)).
- unfold plog.scopeCount. rewrite forallb_zero.
  destruct (Nat.eqb _ 0); reflexivity.
- intros sl h'.
  rewrite (for_each_quiet (fun _ => false)).
  + destruct (plog.LogRecords sl); reflexivity.
  + intros r h''. unfold pushRecord, bind, Exec. rewrite Hc. reflexivity.
Qed.

(** On an exporter without a session, [pushLogsData] returns nil for a
    batch that holds no record, after the two clock readings and the
    summary entry; for any other batch it panics at the first record,
    after the first clock reading and before any statement or log
    entry. *)
Theorem pushLogsData_without_session e ctx ld h :
  client e = None ->
  pushLogsData e ctx ld h
  = if Nat.eqb (plog.LogRecordCount ld) 0
    then (Some None,
          h ++ [EvNow (clock env h);
                EvNow (clock env (h ++ [EvNow (clock env h)]));
                summary ld (clock env (h ++ [EvNow (clock env h)]) - clock env h)])
    else (None, h ++ [EvNow (clock env h)]).
Proof.
intros Hc. unfold pushLogsData, bind, time_Now at 1.
rewrite (for_each_with_quiet
           (fun g => Nat.eqb (plog.scopeCount (plog.ScopeLogsSlice g)) 0)
           resolveServiceName).
- unfold plog.LogRecordCount. rewrite forallb_zero.
  destruct (Nat.eqb _ 0); [|reflexivity].
  unfold time_Since, bind, time_Now, ret, Logger_Debug, emit, summary.
  rewrite <- !app_assoc. reflexivity.
- intros sn g h'. apply pushResource_without_session. exact Hc.
Qed.

(** ** The whole life of an exporter *)

(** When [newLogsExporter] and then [Start] succeed, a later
    [pushLogsData] and [Shutdown] leave no session open: two sessions were
    opened, the exporter's and the one of the bootstrap, and both are
    closed, the one of the bootstrap first. *)
Theorem lifecycle_closes_both_sessions c ctx1 ctx2 ctx3 ld h e h1 h2 :
  newLogsExporter c h = (Some (Some e, None), h1) ->
  Start e ctx1 h1 = (Some None, h2) ->
  exists evs s0 s1,
    Shutdown e ctx3 (snd (pushLogsData e ctx2 ld h2)) = (Some None, h ++ evs) /\
    client e = Some s0 /\
    opened evs = [s0; s1] /\
    closed evs = [s1; s0].
Proof.
intros Hnew Hstart.
unfold newLogsExporter, bind, CreateSession, ret in Hnew.
destruct (connect env h (NewCluster (DSN c))) as [err|]; [discriminate Hnew|].
injection Hnew as He Hh1. subst e h1.
rewrite Start_is_initializeLogKernel in Hstart. cbn [cfg] in Hstart.
destruct (initializeLogKernel_cases c
            (h ++ [EvCreateSession (NewCluster (DSN c)) (inl (List.length h))]))
  as [r [evs [E B]]].
rewrite E in Hstart.
destruct B; try discriminate Hstart.
injection Hstart as Hh2.
destruct (pushLogsData_run (mkLogsExporter (Some (List.length h)) c) ctx2 ld
            (List.length h) h2 eq_refl) as [outs [_ E2]].
cbv zeta in E2.
rewrite Shutdown_closes_or_noop_eq, E2. cbn [snd client].
set (t0 := clock env h2).
set (run := run_events (List.length h) _).
set (t1 := clock env _).
destruct (run_events_sessions (List.length h)
            (combine (rows (mkLogsExporter (Some (List.length h)) c) ctx2 "" ld) outs))
  as [Ho [Hcl _]].
fold run in Ho, Hcl.
eexists. exists (List.length h). eexists.
split; [rewrite <- Hh2, <- !app_assoc; reflexivity|].
split; [reflexivity|].
cbn [app opened closed].
rewrite !opened_app, !closed_app, Ho, Hcl. cbn.
split; reflexivity.
Qed.

End Properties.

(** The outcomes of the inserts do not steer the traversal: in any two
    worlds, from the same history, [pushLogsData] executes the same
    statements in the same order. *)
Theorem pushLogsData_same_statements_in_any_world
    {pkg : Package} (world other : Outside) e ctx ld s h :
  client e = Some s ->
  statements (snd (pushLogsData (world := other) e ctx ld h))
  = statements (snd (pushLogsData (world := world) e ctx ld h)).
Proof.
intros Hc.
rewrite (pushLogsData_statements (world := world) e ctx ld s h Hc).
apply (pushLogsData_statements (world := other) e ctx ld s h Hc).
Qed.

(** * Runs on the concrete package *)

(** Three rows, the second insert fails: all three are attempted, one
    error entry is logged and the call returns nil. *)
Example pushLogsData_second_insert_fails :
  let run := pushLogsData (world := Sample.flaky) Sample.exporter (Caller 1)
               Sample.three [] in
  fst run = Some None /\
  map snd (execs (snd run)) = [None; Some "write timeout"; None] /\
  logged ErrorLevel (snd run) = [error_entry "write timeout"].
Proof. vm_compute. repeat split. Qed.

(** The hypotheses of C1 hold on a world in which every insert fails. *)
Lemma pushLogsData_returns_nil_witness :
  client Sample.exporter = Some 0 /\
  fst (pushLogsData (world := Sample.down) Sample.exporter (Caller 1)
         Sample.three []) = Some None.
Proof.
split; [reflexivity|].
apply (pushLogsData_returns_nil (world := Sample.down) Sample.exporter
         (Caller 1) Sample.three 0 []).
reflexivity.
Defined.

Lemma pushLogsData_one_insert_per_record_witness :
  client Sample.exporter = Some 0 /\
  exists qs,
    map fst
      (execs (snd (pushLogsData (world := Sample.flaky) Sample.exporter
                     (Caller 1) Sample.three [])))
    = map fst (execs []) ++ map (pair 0) qs /\
    Forall2 (isInsertOf (pkg := Sample.package) Sample.exporter (Caller 1))
      qs (allRecords Sample.three) /\
    List.length (allRecords Sample.three) = plog.LogRecordCount Sample.three /\
    List.length
      (execs (snd (pushLogsData (world := Sample.flaky) Sample.exporter
                     (Caller 1) Sample.three [])))
    = List.length (execs (pkg := Sample.package) []) + plog.LogRecordCount Sample.three.
Proof.
split; [reflexivity|].
apply (pushLogsData_one_insert_per_record (world := Sample.flaky)
         Sample.exporter (Caller 1) Sample.three 0 []).
reflexivity.
Defined.

Lemma body_failure_gives_empty_body_witness :
  client Sample.exporter = Some 0 /\
  json_encode (Package := Sample.package)
    (Value_AsRaw (plog.Body Sample.recordNaN))
  = inr "json: unsupported value" /\
  fst (pushLogsData (world := Sample.calm) Sample.exporter (Caller 1)
         (batchAround [] Sample.checkout [] [Sample.recordA] Sample.recordNaN
            [Sample.recordC] [] [])
         []) = Some None.
Proof.
split; [reflexivity|]. split; [reflexivity|].
destruct (body_failure_gives_empty_body (world := Sample.calm)
            Sample.exporter (Caller 1) 0 [] [] Sample.checkout []
            [Sample.recordA] Sample.recordNaN [Sample.recordC] [] []
            "json: unsupported value" eq_refl eq_refl)
  as [sn [qa [qb H]]].
exact (proj1 H).
Defined.

(** C2 on the code. The second resource of the batch has no service name,
    and its row is written with the service name of the first. *)
Theorem pushLogsData_keeps_previous_service_name :
  pcommon.Get Sample.anonymous AttributeServiceName = None /\
  Sample.serviceNames
    (snd (pushLogsData (world := Sample.calm) Sample.exporter (Caller 1)
            Sample.named_then_anonymous []))
  = [Some (ArgString "checkout"); Some (ArgString "checkout")].
Proof. split; reflexivity. Qed.

(** C5 as stated fails. The exporter built by [newLogsExporter] holds
    session 0, opened before [Start] runs; the only session opened during
    [Start] is another one. *)
Lemma Start_does_not_open_client :
  newLogsExporter (world := Sample.calm) Sample.config []
  = (Some (Some Sample.exporter, None),
     [EvCreateSession (NewCluster "127.0.0.1:9042") (inl 0)]) /\
  ~ Start_opens_client (world := Sample.calm) Sample.exporter (Caller 1)
      [EvCreateSession (NewCluster "127.0.0.1:9042") (inl 0)].
Proof.
split; [reflexivity|].
intros [s [Hc Hin]].
vm_compute in Hc. vm_compute in Hin.
destruct Hin as [Hin|[]].
rewrite <- Hin in Hc. discriminate Hc.
Qed.

(** C6 on the code. When the keyspace statement fails, the bootstrap
    returns the error and leaves its session open. *)
Theorem initializeLogKernel_leaves_session_open :
  let run := initializeLogKernel (world := Sample.down) Sample.config [] in
  fst run = Some (Some "unavailable") /\
  opened (snd run) = [0] /\
  closed (snd run) = [].
Proof. vm_compute. repeat split. Qed.

(** On the successful path the session is closed. *)
Example initializeLogKernel_closes_session :
  let run := initializeLogKernel (world := Sample.calm) Sample.config [] in
  fst run = Some None /\ opened (snd run) = [0] /\ closed (snd run) = [0].
Proof. vm_compute. repeat split. Qed.

(** A trace identifier and the all-zero identifier, rendered. *)
Example TraceIDToHexOrEmptyString_samples :
  traceutil.TraceIDToHexOrEmptyString Sample.traceA
  = "4bf92f3577b34da6a3ce929d0e0e4736" /\
  traceutil.SpanIDToHexOrEmptyString Sample.spanA = "00f067aa0ba902b7" /\
  traceutil.TraceIDToHexOrEmptyString (repeat x00 16) = "".
Proof. repeat split. Qed.

(** * Witnesses of the further properties *)

Lemma pushLogsData_keeps_sessions_witness :
  client Sample.exporter = Some 0 /\
  opened (snd (pushLogsData (world := Sample.flaky) Sample.exporter (Caller 1)
                 Sample.three Sample.connected))
  = opened Sample.connected.
Proof.
split; [reflexivity|].
apply (pushLogsData_keeps_sessions (world := Sample.flaky) Sample.exporter
         (Caller 1) Sample.three 0 Sample.connected).
reflexivity.
Defined.

Lemma pushLogsData_summary_witness :
  client Sample.exporter = Some 0 /\
  exists ins,
    readings (pkg := Sample.package) ins = [] /\
    snd (pushLogsData (world := Sample.down) Sample.exporter (Caller 1)
           Sample.three [])
    = [] ++ [EvNow 0] ++ ins
        ++ [EvNow (clock Sample.down ([] ++ [EvNow 0] ++ ins));
            EvLog DebugLevel "insert logs"
              [zap_Int "records" 3;
               zap_String "cost"
                 (Duration_String (Package := Sample.package)
                    (clock Sample.down ([] ++ [EvNow 0] ++ ins) - 0))]].
Proof.
split; [reflexivity|].
destruct (pushLogsData_summary (world := Sample.down) Sample.exporter
            (Caller 1) Sample.three 0 [] eq_refl) as [ins [H [Hr _]]].
exists ins. split; [exact Hr|exact H].
Defined.

Lemma Shutdown_twice_closes_twice_witness :
  client Sample.exporter = Some 0 /\
  Shutdown (pkg := Sample.package) Sample.exporter (Caller 2)
    (snd (Shutdown (pkg := Sample.package) Sample.exporter (Caller 1)
            Sample.connected))
  = (Some None, Sample.connected ++ [EvClose 0; EvClose 0]).
Proof.
split; [reflexivity|].
apply (Shutdown_twice_closes_twice (pkg := Sample.package) Sample.exporter
         (Caller 1) (Caller 2) 0 Sample.connected).
reflexivity.
Defined.

Lemma named_group_rows_carry_own_name_witness :
  client Sample.exporter = Some 0 /\
  pcommon.Get (plog.Resource Sample.namedGroup) AttributeServiceName
  = Some (pcommon.ValueStr "checkout") /\
  groupRowsBind (world := Sample.flaky) Sample.exporter (Caller 1) []
    [Sample.anonymousGroup] Sample.namedGroup [] 6 (ArgString "checkout").
Proof.
split; [reflexivity|]. split; [reflexivity|].
apply (named_group_rows_carry_own_name (world := Sample.flaky) Sample.exporter
         (Caller 1) 0 [] [Sample.anonymousGroup] Sample.namedGroup []
         (pcommon.ValueStr "checkout")); reflexivity.
Defined.

Lemma unnamed_group_rows_carry_previous_name_witness :
  client Sample.exporter = Some 0 /\
  pcommon.Get (plog.Resource Sample.silentGroup) AttributeServiceName
  = Some (pcommon.ValueStr "checkout") /\
  Forall unnamed [Sample.anonymousGroup] /\
  unnamed Sample.anonymousGroup /\
  groupRowsBind (world := Sample.calm) Sample.exporter (Caller 1) []
    ([] ++ [Sample.silentGroup] ++ [Sample.anonymousGroup])
    Sample.anonymousGroup [] 6 (ArgString "checkout").
Proof.
split; [reflexivity|]. split; [reflexivity|].
split; [repeat constructor|]. split; [reflexivity|].
apply (unnamed_group_rows_carry_previous_name (world := Sample.calm)
         Sample.exporter (Caller 1) 0 [] [] Sample.silentGroup
         [Sample.anonymousGroup] Sample.anonymousGroup []
         (pcommon.ValueStr "checkout")).
- reflexivity.
- reflexivity.
- repeat constructor.
- reflexivity.
Defined.

Lemma unnamed_groups_rows_carry_empty_name_witness :
  client Sample.exporter = Some 0 /\
  Forall unnamed [Sample.anonymousGroup] /\
  unnamed Sample.anonymousGroup /\
  groupRowsBind (world := Sample.calm) Sample.exporter (Caller 1) []
    [Sample.anonymousGroup] Sample.anonymousGroup [Sample.namedGroup] 6
    (ArgString "").
Proof.
split; [reflexivity|]. split; [repeat constructor|]. split; [reflexivity|].
apply (unnamed_groups_rows_carry_empty_name (world := Sample.calm)
         Sample.exporter (Caller 1) 0 [] [Sample.anonymousGroup]
         Sample.anonymousGroup [Sample.namedGroup]).
- reflexivity.
- repeat constructor.
- reflexivity.
Defined.

Lemma group_rows_carry_own_resource_attributes_witness :
  client Sample.exporter = Some 0 /\
  groupRowsBind (world := Sample.calm) Sample.exporter (Caller 1) []
    [Sample.namedGroup] Sample.anonymousGroup [] 8
    (ArgMap (pkg := Sample.package) [("host.name", "node-7")]).
Proof.
split; [reflexivity|].
apply (group_rows_carry_own_resource_attributes (world := Sample.calm)
         Sample.exporter (Caller 1) 0 [] [Sample.namedGroup]
         Sample.anonymousGroup []).
reflexivity.
Defined.

Lemma pushLogsData_inserts_in_order_witness :
  client Sample.exporter = Some 0 /\
  exists qs,
    statements (snd (pushLogsData (world := Sample.flaky) Sample.exporter
                       (Caller 1) Sample.three []))
    = statements [] ++ qs /\
    Forall2 (fun q r => exists sn ra,
               q = insertQuery (pkg := Sample.package) Sample.exporter
                     (Caller 1) sn ra r)
      qs (allRecords Sample.three).
Proof.
split; [reflexivity|].
apply (pushLogsData_inserts_in_order (world := Sample.flaky) Sample.exporter
         (Caller 1) Sample.three 0 []).
reflexivity.
Defined.

Lemma pushLogsData_insert_shape_witness :
  client Sample.exporter = Some 0 /\
  exists qs,
    statements (snd (pushLogsData (world := Sample.down) Sample.exporter
                       (Caller 1) Sample.three []))
    = statements [] ++ qs /\
    Forall (fun q => stmt q = insertStatement (pkg := Sample.package)
                                Sample.exporter /\
                     qctx q = Caller 1 /\ List.length (values q) = 10) qs.
Proof.
split; [reflexivity|].
apply (pushLogsData_insert_shape (world := Sample.down) Sample.exporter
         (Caller 1) Sample.three 0 []).
reflexivity.
Defined.

Lemma pushLogsData_without_session_witness :
  client Sample.unconnected = None /\
  fst (pushLogsData (world := Sample.calm) Sample.unconnected (Caller 1)
         Sample.three []) = None /\
  fst (pushLogsData (world := Sample.calm) Sample.unconnected (Caller 1)
         Sample.hollow []) = Some None.
Proof.
split; [reflexivity|]. split.
- rewrite (pushLogsData_without_session (world := Sample.calm)
             Sample.unconnected (Caller 1) Sample.three [] eq_refl).
  reflexivity.
- rewrite (pushLogsData_without_session (world := Sample.calm)
             Sample.unconnected (Caller 1) Sample.hollow [] eq_refl).
  reflexivity.
Defined.

Lemma pushLogsData_same_statements_in_any_world_witness :
  client Sample.exporter = Some 0 /\
  statements (snd (pushLogsData (world := Sample.down) Sample.exporter
                     (Caller 1) Sample.three []))
  = statements (snd (pushLogsData (world := Sample.calm) Sample.exporter
                       (Caller 1) Sample.three [])).
Proof.
split; [reflexivity|].
apply (pushLogsData_same_statements_in_any_world Sample.calm Sample.down
         Sample.exporter (Caller 1) Sample.three 0 []).
reflexivity.
Defined.

Lemma lifecycle_closes_both_sessions_witness :
  newLogsExporter (world := Sample.calm) Sample.config []
  = (Some (Some Sample.exporter, None), Sample.connected) /\
  Start (world := Sample.calm) Sample.exporter Background Sample.connected
  = (Some None,
     snd (Start (world := Sample.calm) Sample.exporter Background
            Sample.connected)) /\
  exists evs s0 s1,
    Shutdown (pkg := Sample.package) Sample.exporter (Caller 2)
      (snd (pushLogsData (world := Sample.calm) Sample.exporter (Caller 1)
              Sample.three
              (snd (Start (world := Sample.calm) Sample.exporter Background
                      Sample.connected))))
    = (Some None, [] ++ evs) /\
    client Sample.exporter = Some s0 /\
    opened evs = [s0; s1] /\ closed evs = [s1; s0].
Proof.
split; [reflexivity|]. split; [reflexivity|].
apply (lifecycle_closes_both_sessions (world := Sample.calm) Sample.config
         Background (Caller 1) (Caller 2) Sample.three [] Sample.exporter
         Sample.connected
         (snd (Start (world := Sample.calm) Sample.exporter Background
                 Sample.connected))); reflexivity.
Defined.
